(** * Dashboard backend: the data aggregator and the Gemini relay

    A shallow embedding of the two serverless handlers of the repository,
    [api/data.js] (the aggregator) and the Gemini proxy handler (the relay),
    together with the small part of the JavaScript runtime they rely on:
    JSON values and truthiness, [fetch] and its [Response] object, the
    server response object ([setHeader], [status], [json], [end]),
    [Promise.all], [try]/[catch] and [console.error].  [JSON.stringify] is
    a parameter of the relay. *)

From Stdlib Require Import PrimFloat.
From stdpp Require Import gmap strings list fin_maps.

Set Warnings "-register-all".
Open Scope Z_scope.
Open Scope string_scope.

(** ** JavaScript values *)

Module Js.

(** The values a JSON document parses to.  Numbers are IEEE 754 doubles,
    as in JavaScript.  An object is its list of own properties, in
    insertion order; a JavaScript object has each key at most once. *)
Inductive json : Type :=
| JNull
| JBool (b : bool)
| JNumber (x : float)
| JString (s : string)
| JArray (items : list json)
| JObject (fields : list (string * json)).

(** A JavaScript value that may be [undefined] is an [option json], with
    [None] for [undefined].

    ToBoolean: [undefined], [null], [false], [0], [-0], [NaN] and the
    empty string are falsy, everything else (arrays and objects too) is
    truthy. *)
Definition truthy (v : option json) : bool :=
  match v with
  | None => false
  | Some JNull => false
  | Some (JBool b) => b
  | Some (JNumber x) => negb (PrimFloat.is_zero x || PrimFloat.is_nan x)
  | Some (JString s) => negb (String.eqb s "")
  | Some (JArray _) => true
  | Some (JObject _) => true
  end.

Fixpoint lookup_field (k : string) (fields : list (string * json)) : option json :=
  match fields with
  | [] => None
  | (k', v) :: rest => if String.eqb k k' then Some v else lookup_field k rest
  end.

(** [v.k] for a name [k] that no prototype defines: the own property of
    an object, [undefined] on every other non-nullish value. *)
Definition get_prop (k : string) (v : json) : option json :=
  match v with
  | JObject fields => lookup_field k fields
  | _ => None
  end.

(** An object literal whose property values may be [undefined], as it is
    serialised: JSON has no [undefined], such properties are left out. *)
Fixpoint object_literal (props : list (string * option json)) : list (string * json) :=
  match props with
  | [] => []
  | (k, Some v) :: rest => (k, v) :: object_literal rest
  | (_, None) :: rest => object_literal rest
  end.

Definition has_field (k : string) (v : json) : bool :=
  match get_prop k v with Some _ => true | None => false end.

(** A thrown [Error]; only its [message] is ever read. *)
Record Error : Type := mkError { message : string }.

(** The outcome of an awaited promise. *)
Inductive Result (A : Type) : Type :=
| Fulfilled (a : A)
| Rejected (e : Error).
Arguments Fulfilled {A} a.
Arguments Rejected {A} e.

Definition is_fulfilled {A} (r : Result A) : bool :=
  match r with Fulfilled _ => true | Rejected _ => false end.

(** [p.then(f)] for a function that does not throw. *)
Definition then_ {A B} (f : A -> B) (r : Result A) : Result B :=
  match r with Fulfilled a => Fulfilled (f a) | Rejected e => Rejected e end.

(** *** Promise.all

    [Promise.all] fulfils with all the values when every promise fulfils
    and otherwise rejects with the reason of the promise that rejects
    FIRST IN TIME.  The moment at which the promise at index [i] settles
    is given by a schedule [settle i]. *)
Fixpoint rejections {A} (i : nat) (ps : list (Result A)) : list (nat * Error) :=
  match ps with
  | [] => []
  | Fulfilled _ :: rest => rejections (S i) rest
  | Rejected e :: rest => (i, e) :: rejections (S i) rest
  end.

Fixpoint fulfilments {A} (ps : list (Result A)) : list A :=
  match ps with
  | [] => []
  | Fulfilled a :: rest => a :: fulfilments rest
  | Rejected _ :: rest => fulfilments rest
  end.

Definition earlier (settle : nat -> nat) (best cand : nat * Error) : nat * Error :=
  if Nat.ltb (settle cand.1) (settle best.1) then cand else best.

Definition Promise_all {A} (settle : nat -> nat) (ps : list (Result A)) : Result (list A) :=
  match rejections 0 ps with
  | [] => Fulfilled (fulfilments ps)
  | r :: rs => Rejected (foldl (earlier settle) r rs).2
  end.

End Js.
Export Js.

(** ** The HTTP runtime: fetch, the server response, the console *)

Module Runtime.

(** The [Response] a [fetch] resolves to.  [resp_text] and [resp_json] are
    what awaiting [response.text()] and [response.json()] gives; reading
    or parsing the body can itself reject. *)
Record FetchResponse : Type := mkFetchResponse {
  ok : bool;
  status : Z;
  statusText : string;
  resp_text : Result string;
  resp_json : Result json
}.

(** Awaiting [fetch] either rejects (connection-level failure) or gives a
    response, whatever its status. *)
Inductive FetchOutcome : Type :=
| NetworkFailure (e : Error)
| Responded (r : FetchResponse).

(** The second argument of [fetch].  [init_body] is the text sent as the
    body of the request. *)
Record FetchInit : Type := mkFetchInit {
  init_method : string;
  init_headers : list (string * string);
  init_body : option string
}.

Record OutboundCall : Type := mkCall {
  call_url : string;
  call_init : option FetchInit
}.

(** The outside world: what each outbound call meets. *)
Definition Network : Type := OutboundCall -> FetchOutcome.

(** The inbound request: the two fields the handlers read. *)
Record Request : Type := mkRequest {
  method : string;
  body : option json
}.

Inductive Payload : Type :=
| NoPayload
| JsonPayload (j : json).

(** The server response object.  [sent] is set by [json] and [end]. *)
Record ServerResponse : Type := mkServerResponse {
  statusCode : Z;
  headers : gmap string string;
  payload : Payload;
  sent : bool
}.

Definition fresh_response : ServerResponse :=
  {| statusCode := 200; headers := ∅; payload := NoPayload; sent := false |}.

Inductive Logged : Type :=
| LogText (s : string)
| LogError (e : Error).

(** Everything a handler can change: the response object, the outbound
    calls made so far (oldest first) and the server-side log. *)
Record World : Type := mkWorld {
  response : ServerResponse;
  calls : list OutboundCall;
  console : list (string * Logged)
}.

Definition initial_world : World :=
  {| response := fresh_response; calls := []; console := [] |}.

(** Handler code: a state transformer that may throw. *)
Definition M (A : Type) : Type := World -> Result A * World.

Definition ret {A} (a : A) : M A := fun w => (Fulfilled a, w).

Definition bind {A B} (m : M A) (k : A -> M B) : M B :=
  fun w =>
    match m w with
    | (Fulfilled a, w') => k a w'
    | (Rejected e, w') => (Rejected e, w')
    end.

Definition throw {A} (e : Error) : M A := fun w => (Rejected e, w).

(** [await p] for a promise that settles as [r]. *)
Definition await {A} (r : Result A) : M A := fun w => (r, w).

Definition try_catch {A} (m : M A) (handle : Error -> M A) : M A :=
  fun w =>
    match m w with
    | (Fulfilled a, w') => (Fulfilled a, w')
    | (Rejected e, w') => handle e w'
    end.

(** Calling an async function without awaiting it: its effects happen,
    its outcome is kept in the promise. *)
Definition start {A} (m : M A) : M (Result A) :=
  fun w => let '(r, w') := m w in (Fulfilled r, w').

Definition update_response (f : ServerResponse -> ServerResponse) : M unit :=
  fun w => (Fulfilled tt,
            {| response := f (response w); calls := calls w; console := console w |}).

Definition setHeader (name value : string) : M unit :=
  update_response (fun r =>
    {| statusCode := statusCode r; headers := <[name := value]> (headers r);
       payload := payload r; sent := sent r |}).

Definition set_status (code : Z) : M unit :=
  update_response (fun r =>
    {| statusCode := code; headers := headers r;
       payload := payload r; sent := sent r |}).

Definition send_json (j : json) : M unit :=
  update_response (fun r =>
    {| statusCode := statusCode r; headers := headers r;
       payload := JsonPayload j; sent := true |}).

Definition send_end : M unit :=
  update_response (fun r =>
    {| statusCode := statusCode r; headers := headers r;
       payload := payload r; sent := true |}).

Definition console_error (label : string) (what : Logged) : M unit :=
  fun w => (Fulfilled tt,
            {| response := response w; calls := calls w;
               console := console w ++ [(label, what)] |}).

(** [await fetch(url, init)]: the call is recorded, then the network
    answers. *)
Definition fetch (net : Network) (url : string) (init : option FetchInit) : M FetchResponse :=
  fun w =>
    let c := {| call_url := url; call_init := init |} in
    let w' := {| response := response w; calls := calls w ++ [c]; console := console w |} in
    match net c with
    | NetworkFailure e => (Rejected e, w')
    | Responded r => (Fulfilled r, w')
    end.

(** Running a handler on a fresh response object. *)
Definition run {A} (m : M A) : World := (m initial_world).2.

End Runtime.
Export Runtime.

Notation "'let!' x ':=' m 'in' k" := (Runtime.bind m (fun x => k))
  (at level 10, x name, m at level 100, k at level 200).
Notation "'do!' m 'in' k" := (Runtime.bind m (fun _ => k))
  (at level 10, m at level 100, k at level 200).

(** ** The aggregator, [api/data.js] *)

Module Aggregator.

Definition API_BASE : string := "https://api.koios.rest/api/v1".
Definition SPO_DATA_URL : string :=
  "https://gist.githubusercontent.com/Thomas-nada/7b742a3ca9e42281ae831b3da689c0b5/raw/fcf93ff7fae331a329f2ed69267bdf44e29f021e/governance-report.csv".
Definition DREP_DATA_URL : string :=
  "https://gist.githubusercontent.com/Thomas-nada/28f6ba461017efcb5ab942964776923e/raw/509ad05637b91d228b2bf0b6e26cd38d9641dd4d/drep_directory.json".
Definition PROPOSAL_LIST_URL : string := API_BASE +:+ "/proposal_list".

Definition fetch_failure (url : string) (response : FetchResponse) : Error :=
  mkError ("Failed to fetch " +:+ url +:+ ": " +:+ statusText response).

Definition fetchJson (net : Network) (url : string) : M json :=
  let! response := fetch net url None in
  if negb (ok response) then throw (fetch_failure url response)
  else await (resp_json response).

Definition fetchText (net : Network) (url : string) : M string :=
  let! response := fetch net url None in
  if negb (ok response) then throw (fetch_failure url response)
  else await (resp_text response).

Definition handler (net : Network) (settle : nat -> nat) (request : Request) : M unit :=
  do! setHeader "Access-Control-Allow-Origin" "*" in
  do! setHeader "Access-Control-Allow-Methods" "GET, OPTIONS" in
  do! setHeader "Access-Control-Allow-Headers" "Content-Type" in
  if String.eqb (method request) "OPTIONS" then
    do! set_status 200 in send_end
  else
    try_catch
      (let! p0 := start (let! text := fetchText net SPO_DATA_URL in ret (JString text)) in
       let! p1 := start (fetchJson net DREP_DATA_URL) in
       let! p2 := start (fetchJson net PROPOSAL_LIST_URL) in
       let! results := await (Promise_all settle [p0; p1; p2]) in
       let spoDataCsv := results !! 0%nat in
       let drepData := results !! 1%nat in
       let proposalList := results !! 2%nat in
       do! set_status 200 in
       send_json (JObject (object_literal
         [("spoDataCsv", spoDataCsv); ("drepData", drepData);
          ("proposalList", proposalList)])))
      (fun error =>
         do! console_error "Error fetching initial data:" (LogError error) in
         do! set_status 500 in
         send_json (JObject
           [("error", JString "Failed to fetch initial data.");
            ("details", JString (message error))])).

End Aggregator.

(** ** The relay to the Gemini API *)

Module Relay.

Definition GEMINI_ENDPOINT : string :=
  "https://generativelanguage.googleapis.com/v1beta/models/gemini-2.5-flash-preview-05-20:generateContent?key=".

(** [`${v}`] for an environment variable, which is a string or
    [undefined]. *)
Definition interpolate (v : option string) : string :=
  match v with
  | Some s => s
  | None => "undefined"
  end.

(** [!incomingPayload || !incomingPayload.contents]; the property is
    read only when the payload is truthy. *)
Definition invalid_body (incomingPayload : option json) : bool :=
  negb (truthy incomingPayload)
  || negb (truthy (incomingPayload ≫= get_prop "contents")).

(** [!apiKey]. *)
Definition missing_key (apiKey : option string) : bool :=
  negb (truthy (JString <$> apiKey)).

Section Platform.

(** [JSON.stringify], the serialiser of the JavaScript platform, on the
    values a JSON document parses to; on such values it does not throw.  It
    is not code of this repository and is left open: whatever it does to a
    value (a number that is not finite becomes [null], [-0] becomes [0]) it
    does to the outbound body. *)
Variable JSON_stringify : json -> string.

(** [JSON.stringify(undefined)] is [undefined]. *)
Definition forward_init (incomingPayload : option json) : FetchInit :=
  {| init_method := "POST";
     init_headers := [("Content-Type", "application/json")];
     init_body := JSON_stringify <$> incomingPayload |}.

(** [env] is [process.env]. *)
Definition handler (env : gmap string string) (net : Network) (request : Request) : M unit :=
  if negb (String.eqb (method request) "POST") then
    do! set_status 405 in
    send_json (JObject [("error", JString "Method Not Allowed")])
  else
    let incomingPayload := body request in
    if invalid_body incomingPayload then
      do! set_status 400 in
      send_json (JObject [("error", JString "Invalid request body")])
    else
      let apiKey := env !! "GEMINI_API_KEY" in
      if missing_key apiKey then
        do! set_status 500 in
        send_json (JObject [("error", JString "API key not configured on the server.")])
      else
        let apiUrl := GEMINI_ENDPOINT +:+ interpolate apiKey in
        try_catch
          (let! geminiResponse :=
             fetch net apiUrl (Some (forward_init incomingPayload)) in
           if negb (ok geminiResponse) then
             let! errorBody := await (resp_text geminiResponse) in
             do! console_error "Gemini API Error:" (LogText errorBody) in
             do! set_status (status geminiResponse) in
             send_json (JObject [("error", JString ("Gemini API error: " +:+ errorBody))])
           else
             let! data := await (resp_json geminiResponse) in
             do! set_status 200 in
             send_json data)
          (fun error =>
             do! console_error "Error proxying request to Gemini:" (LogError error) in
             do! set_status 500 in
             send_json (JObject [("error", JString "Failed to fetch from Gemini API.")])).

End Platform.

End Relay.

(** ** Observing a run *)

Module Observe.

(** How an async call settles: its outcome on a fresh world.  (The
    helpers below never read the world, see [fetchText_runs].) *)
Definition outcome {A} (m : M A) : Result A := (m initial_world).1.

(** The world after one more outbound GET. *)
Definition after_get (url : string) (w : World) : World :=
  {| response := response w;
     calls := calls w ++ [{| call_url := url; call_init := None |}];
     console := console w |}.

(** A response that was sent with [.status(code).json({error: msg})] and
    no header. *)
Definition error_reply (code : Z) (msg : string) : ServerResponse :=
  {| statusCode := code; headers := ∅;
     payload := JsonPayload (JObject [("error", JString msg)]); sent := true |}.

(** A response that was sent with [.status(code).json(data)] and no
    header. *)
Definition json_reply (code : Z) (data : json) : ServerResponse :=
  {| statusCode := code; headers := ∅; payload := JsonPayload data; sent := true |}.

(** The field [k] of the JSON body of a response, when it has one. *)
Definition body_field (k : string) (r : ServerResponse) : option json :=
  match payload r with
  | JsonPayload j => get_prop k j
  | NoPayload => None
  end.

(** [needle] occurs in [hay]. *)
Fixpoint contains (needle hay : string) : bool :=
  String.prefix needle hay
  || match hay with
     | EmptyString => false
     | String _ rest => contains needle rest
     end.

End Observe.
Export Observe.

Module AggregatorView.
Import Aggregator.

(** The three upstream calls of the aggregator. *)
Definition csv_call (net : Network) : Result string := outcome (fetchText net SPO_DATA_URL).
Definition drep_call (net : Network) : Result json := outcome (fetchJson net DREP_DATA_URL).
Definition proposals_call (net : Network) : Result json :=
  outcome (fetchJson net PROPOSAL_LIST_URL).

(** The array handed to [Promise.all]. *)
Definition promises (net : Network) : list (Result json) :=
  [then_ JString (csv_call net); drep_call net; proposals_call net].

Definition all_succeed (net : Network) : bool :=
  is_fulfilled (csv_call net) && is_fulfilled (drep_call net)
  && is_fulfilled (proposals_call net).

Definition cors_headers : gmap string string :=
  <["Access-Control-Allow-Headers" := "Content-Type"]>
    (<["Access-Control-Allow-Methods" := "GET, OPTIONS"]>
       (<["Access-Control-Allow-Origin" := "*"]> ∅)).

(** The upstream at [url] answers with response [r], whose status is not
    a success status. *)
Definition answers_with_error (net : Network) (url : string) (r : FetchResponse) : Prop :=
  net {| call_url := url; call_init := None |} = Responded r /\ ok r = false.

End AggregatorView.

Module RelayView.
Import Relay.

(** The one outbound call of the relay. *)
Definition forward_call (JSON_stringify : json -> string)
    (env : gmap string string) (request : Request) : OutboundCall :=
  {| call_url := GEMINI_ENDPOINT +:+ interpolate (env !! "GEMINI_API_KEY");
     call_init := Some (forward_init JSON_stringify (body request)) |}.

End RelayView.

(** ** Sample requests and upstreams *)

Module Samples.
Import Aggregator Relay.

Definition success (text : string) (data : json) : FetchResponse :=
  {| ok := true; status := 200; statusText := "OK";
     resp_text := Fulfilled text; resp_json := Fulfilled data |}.

Definition failure (code : Z) (reason text : string) : FetchResponse :=
  {| ok := false; status := code; statusText := reason;
     resp_text := Fulfilled text;
     resp_json := Rejected (mkError "Unexpected token in JSON") |}.

Definition get_request : Request := {| method := "GET"; body := None |}.

Definition in_order : nat -> nat := fun i => i.

(** Every upstream answers 200. *)
Definition all_up : Network :=
  fun _ => Responded (success "pool,vote" (JArray [JString "drep1"])).

(** Every upstream answers 200, except the one at [url]. *)
Definition down_at (url : string) : Network :=
  fun c =>
    if String.eqb (call_url c) url
    then Responded (failure 404 "Not Found" "missing")
    else all_up c.

(** Every upstream answers 404. *)
Definition all_down : Network :=
  fun _ => Responded (failure 404 "Not Found" "missing").

Definition latest_first : nat -> nat := fun i => (2 - i)%nat.

Definition unreachable : Network :=
  fun _ => NetworkFailure (mkError "fetch failed").

Definition prompt : json :=
  JObject [("contents", JArray [JObject [("parts", JArray [JObject [("text", JString "hi")]])]])].

Definition post (payload : json) : Request := {| method := "POST"; body := Some payload |}.

Definition with_key (k : string) : gmap string string := {["GEMINI_API_KEY" := k]}.

Definition candidates : json := JObject [("candidates", JArray [])].

(** A serialiser for the sample payloads, which hold only strings without
    characters to escape, arrays and objects; it stands for the platform's
    [JSON.stringify] where a concrete one is needed.  Numbers, which the
    samples do not contain, are all written [0]. *)
Fixpoint stringify (j : json) : string :=
  let mark := Ascii.ascii_of_nat 34 in
  let quote s := String mark (s +:+ String mark "") in
  let fix items (js : list json) : string :=
    match js with
    | [] => ""
    | [j] => stringify j
    | j :: rest => stringify j +:+ "," +:+ items rest
    end in
  let fix members (fs : list (string * json)) : string :=
    match fs with
    | [] => ""
    | [(k, v)] => quote k +:+ ":" +:+ stringify v
    | (k, v) :: rest => quote k +:+ ":" +:+ stringify v +:+ "," +:+ members rest
    end in
  match j with
  | JNull => "null"
  | JBool true => "true"
  | JBool false => "false"
  | JNumber _ => "0"
  | JString s => quote s
  | JArray js => "[" +:+ items js +:+ "]"
  | JObject fs => "{" +:+ members fs +:+ "}"
  end.

Definition gemini_up : Network := fun _ => Responded (success "" candidates).

Definition gemini_quota : Network :=
  fun _ => Responded (failure 503 "Service Unavailable" "quota exceeded").

(** An upstream that names the key of the request URL in its error. *)
Definition gemini_echo : Network :=
  fun c => Responded (failure 400 "Bad Request"
    ("API key not valid: " +:+ String.substring (String.length GEMINI_ENDPOINT)
                                 (String.length (call_url c)) (call_url c))).

End Samples.

(** ** Outbound calls *)

Module Outbound.

(** [fetch(url)], a GET without options. *)
Definition get (url : string) : OutboundCall := {| call_url := url; call_init := None |}.

End Outbound.
Export Outbound.

(** ** More sample upstreams *)

Module MoreSamples.
Import Aggregator Relay Samples.

(** A 200 answer whose body is not JSON. *)
Definition garbled (text : string) : FetchResponse :=
  {| ok := true; status := 200; statusText := "OK";
     resp_text := Fulfilled text;
     resp_json := Rejected (mkError "Unexpected token < in JSON at position 0") |}.

(** Every upstream answers 200, the one at [url] with a body that is not
    JSON. *)
Definition garbled_at (url : string) : Network :=
  fun c => if String.eqb (call_url c) url then Responded (garbled "<html>") else all_up c.

(** Every upstream answers 200, except that the one at [url] cannot be
    reached. *)
Definition offline_at (url : string) : Network :=
  fun c =>
    if String.eqb (call_url c) url then NetworkFailure (mkError "fetch failed") else all_up c.

Definition delete_request : Request :=
  {| method := "DELETE"; body := Some (JString "ignored") |}.

Definition gemini_garbled : Network := fun _ => Responded (garbled "<html>").

(** A non-success answer whose body cannot be read. *)
Definition gemini_broken_stream : Network :=
  fun _ => Responded
    {| ok := false; status := 502; statusText := "Bad Gateway";
       resp_text := Rejected (mkError "terminated");
       resp_json := Rejected (mkError "terminated") |}.

End MoreSamples.

(** ** Facts about [Promise.all] *)

Module PromiseFacts.

Lemma rejections_lookup {A} (ps : list (Result A)) (i j : nat) (e : Error) :
  (j, e) ∈ rejections i ps -> exists k : nat, j = (i + k)%nat /\ ps !! k = Some (Rejected e).
Proof.
  revert i. induction ps as [|p ps IH]; intros i Hin; cbn in Hin.
  - by apply elem_of_nil in Hin.
  - destruct p as [a|e'].
    + destruct (IH _ Hin) as (k & -> & Hk). exists (S k). split; [lia | done].
    + apply elem_of_cons in Hin as [Heq | Hin].
      * injection Heq as -> ->. exists 0%nat. split; [lia | done].
      * destruct (IH _ Hin) as (k & -> & Hk). exists (S k). split; [lia | done].
Qed.

Lemma rejections_none {A} (ps : list (Result A)) (i : nat) :
  rejections i ps = [] <-> ps = Fulfilled <$> fulfilments ps.
Proof.
  revert i. induction ps as [|p ps IH]; intros i; cbn; [done|].
  destruct p as [a|e]; cbn.
  - rewrite IH. split; [by intros <- | by intros [= ?]].
  - split; [done|].
    intros H. assert (Hl := f_equal length H). cbn in Hl.
    rewrite length_fmap in Hl.
    assert (length (fulfilments ps) <= length ps)%nat; [|lia].
    clear. induction ps as [|[?|?] ? ?]; cbn; lia.
Qed.

Lemma fulfilments_fmap {A} (vs : list A) : fulfilments (Fulfilled <$> vs) = vs.
Proof. induction vs as [|v vs IH]; cbn; [done | by rewrite IH]. Qed.

Lemma earliest_among (settle : nat -> nat) (r : nat * Error) (rs : list (nat * Error)) :
  foldl (earlier settle) r rs ∈ r :: rs.
Proof.
  revert r. induction rs as [|c rs IH]; intros r; cbn.
  - set_solver.
  - specialize (IH (earlier settle r c)).
    apply elem_of_cons in IH as [-> | IH].
    + unfold earlier. destruct (Nat.ltb _ _); set_solver.
    + set_solver.
Qed.

(** [Promise.all] fulfils exactly when every promise does, with their
    values in order. *)
Lemma Promise_all_fulfilled {A} (settle : nat -> nat) (ps : list (Result A)) (vs : list A) :
  Promise_all settle ps = Fulfilled vs <-> ps = Fulfilled <$> vs.
Proof.
  unfold Promise_all. split.
  - destruct (rejections 0 ps) eqn:Hr; [|done].
    intros [= <-]. by apply (rejections_none ps 0%nat).
  - intros ->.
    assert (rejections 0 (Fulfilled <$> vs) = []) as ->.
    { apply rejections_none. by rewrite fulfilments_fmap. }
    by rewrite fulfilments_fmap.
Qed.

(** When it rejects, its reason is the reason of one of the promises. *)
Lemma Promise_all_rejected {A} (settle : nat -> nat) (ps : list (Result A)) (e : Error) :
  Promise_all settle ps = Rejected e -> Rejected e ∈ ps.
Proof.
  unfold Promise_all. destruct (rejections 0 ps) as [|r rs] eqn:Hr; [done|].
  intros [= <-].
  pose proof (earliest_among settle r rs) as Hin. rewrite <- Hr in Hin.
  destruct (foldl (earlier settle) r rs) as [j e]. cbn.
  apply rejections_lookup in Hin as (k & _ & Hk).
  by apply list_elem_of_lookup_2 in Hk.
Qed.

(** It rejects as soon as one promise does. *)
Lemma Promise_all_rejects {A} (settle : nat -> nat) (ps : list (Result A)) :
  forallb is_fulfilled ps = false -> exists e, Promise_all settle ps = Rejected e.
Proof.
  intros Hall. destruct (Promise_all settle ps) as [vs|e] eqn:HP; [|by eexists].
  apply Promise_all_fulfilled in HP. subst ps. exfalso.
  assert (forallb is_fulfilled (Fulfilled <$> vs) = true); [|congruence].
  clear. induction vs; cbn; done.
Qed.

End PromiseFacts.

(** ** The aggregator's contract *)

Module AggregatorFacts.
Import Aggregator AggregatorView PromiseFacts.

Lemma fetchText_runs (net : Network) (url : string) (w : World) :
  fetchText net url w = (outcome (fetchText net url), after_get url w).
Proof.
  unfold outcome, fetchText, bind, fetch, after_get, throw, await. cbn.
  destruct (net _) as [e|r]; cbn; [done|].
  destruct (ok r); cbn; done.
Qed.

Lemma fetchJson_runs (net : Network) (url : string) (w : World) :
  fetchJson net url w = (outcome (fetchJson net url), after_get url w).
Proof.
  unfold outcome, fetchJson, bind, fetch, after_get, throw, await. cbn.
  destruct (net _) as [e|r]; cbn; [done|].
  destruct (ok r); cbn; done.
Qed.

Lemma aggregator_runs (net : Network) (settle : nat -> nat) (request : Request) :
  method request <> "OPTIONS" ->
  run (handler net settle request) =
  let reply code j :=
    {| response := {| statusCode := code; headers := cors_headers;
                      payload := JsonPayload j; sent := true |};
       calls := [mkCall SPO_DATA_URL None; mkCall DREP_DATA_URL None;
                 mkCall PROPOSAL_LIST_URL None];
       console := [] |} in
  match Promise_all settle (promises net) with
  | Fulfilled results =>
      reply 200 (JObject (object_literal
        [("spoDataCsv", results !! 0%nat); ("drepData", results !! 1%nat);
         ("proposalList", results !! 2%nat)]))
  | Rejected error =>
      let w := reply 500 (JObject [("error", JString "Failed to fetch initial data.");
                          ("details", JString (message error))]) in
      {| response := response w; calls := calls w;
         console := [("Error fetching initial data:", LogError error)] |}
  end.
Proof.
  intros Hm. apply String.eqb_neq in Hm.
  unfold run, handler, bind, try_catch, start, setHeader, set_status, send_json,
    console_error, update_response, await, ret.
  cbn -[object_literal outcome Promise_all]. rewrite Hm.
  unfold promises, csv_call, drep_call, proposals_call.
  rewrite fetchText_runs.
  destruct (outcome (fetchText net SPO_DATA_URL)) as [text|e0];
    cbn -[object_literal outcome Promise_all];
    rewrite fetchJson_runs; cbn -[object_literal outcome Promise_all];
    rewrite fetchJson_runs; cbn -[object_literal outcome Promise_all];
    destruct (Promise_all (A:=json) settle _); reflexivity.
Qed.

Lemma preflight_runs (net : Network) (settle : nat -> nat) (request : Request) :
  method request = "OPTIONS" ->
  run (handler net settle request) =
  {| response := {| statusCode := 200; headers := cors_headers;
                    payload := NoPayload; sent := true |};
     calls := []; console := [] |}.
Proof.
  intros Hm. apply String.eqb_eq in Hm.
  unfold run, handler, bind, setHeader, set_status, send_end, update_response.
  cbn. rewrite Hm. reflexivity.
Qed.

Lemma error_answer_rejects_text (net : Network) (url : string) (r : FetchResponse) :
  answers_with_error net url r -> outcome (fetchText net url) = Rejected (fetch_failure url r).
Proof.
  intros [Hnet Hok]. unfold outcome, fetchText, bind, fetch, throw. cbn.
  rewrite Hnet. cbn. by rewrite Hok.
Qed.

Lemma error_answer_rejects_json (net : Network) (url : string) (r : FetchResponse) :
  answers_with_error net url r -> outcome (fetchJson net url) = Rejected (fetch_failure url r).
Proof.
  intros [Hnet Hok]. unfold outcome, fetchJson, bind, fetch, throw. cbn.
  rewrite Hnet. cbn. by rewrite Hok.
Qed.

Lemma promises_all_fulfilled (net : Network) :
  forallb is_fulfilled (promises net) = all_succeed net.
Proof.
  unfold promises, all_succeed. cbn.
  destruct (csv_call net), (drep_call net), (proposals_call net); reflexivity.
Qed.

Lemma promises_rejected (net : Network) (e : Error) :
  Rejected e ∈ promises net ->
  csv_call net = Rejected e \/ drep_call net = Rejected e \/ proposals_call net = Rejected e.
Proof.
  unfold promises. intros Hin.
  apply elem_of_cons in Hin as [Heq | Hin].
  { left. destruct (csv_call net); cbn in Heq; congruence. }
  apply elem_of_cons in Hin as [Heq | Hin]; [by right; left|].
  apply elem_of_cons in Hin as [Heq | Hin]; [by right; right|].
  by apply elem_of_nil in Hin.
Qed.

(** C1: when at least one of the three upstream calls fails, a request
    other than OPTIONS is answered with status 500 and the body
    [{error: 'Failed to fetch initial data.', details: m}], where [m] is
    the message of one of the failures, and the body has none of the
    fields [spoDataCsv], [drepData], [proposalList]. *)
Theorem failure_is_all_or_nothing (net : Network) (settle : nat -> nat) (request : Request) :
  method request <> "OPTIONS" ->
  all_succeed net = false ->
  exists e : Error,
    (csv_call net = Rejected e \/ drep_call net = Rejected e
     \/ proposals_call net = Rejected e) /\
    let r := response (run (handler net settle request)) in
    statusCode r = 500 /\ sent r = true /\
    payload r = JsonPayload (JObject [("error", JString "Failed to fetch initial data.");
                                      ("details", JString (message e))]) /\
    body_field "spoDataCsv" r = None /\ body_field "drepData" r = None /\
    body_field "proposalList" r = None.
Proof.
  intros Hm Hfail. rewrite (aggregator_runs _ _ _ Hm).
  rewrite <- promises_all_fulfilled in Hfail.
  destruct (Promise_all_rejects settle _ Hfail) as [e He].
  exists e. split.
  - apply promises_rejected. by apply Promise_all_rejected in He.
  - rewrite He. cbn. repeat split.
Qed.

Lemma failure_is_all_or_nothing_witness :
  exists e : Error,
    drep_call (Samples.down_at DREP_DATA_URL) = Rejected e /\
    payload (response (run (handler (Samples.down_at DREP_DATA_URL) Samples.in_order
                                    Samples.get_request)))
    = JsonPayload (JObject [("error", JString "Failed to fetch initial data.");
                            ("details", JString (message e))]).
Proof.
  destruct (failure_is_all_or_nothing (Samples.down_at DREP_DATA_URL) Samples.in_order
              Samples.get_request) as (e & Hwho & _ & _ & Hbody & _).
  - discriminate.
  - vm_compute. reflexivity.
  - exists e. split; [|exact Hbody].
    destruct Hwho as [H | [H | H]]; [vm_compute in H; discriminate | exact H |
                                     vm_compute in H; discriminate].
Defined.

(** C2: a request other than OPTIONS is answered with status 200 if and
    only if all three upstream calls succeed, and then the body is
    exactly [{spoDataCsv, drepData, proposalList}] with the CSV text and
    the two JSON values as the upstreams returned them. *)
Theorem success_iff_all_upstreams_succeed
    (net : Network) (settle : nat -> nat) (request : Request) :
  method request <> "OPTIONS" ->
  let r := response (run (handler net settle request)) in
  (statusCode r = 200 <->
   exists csv drep proposals,
     csv_call net = Fulfilled csv /\ drep_call net = Fulfilled drep
     /\ proposals_call net = Fulfilled proposals) /\
  (forall csv drep proposals,
     csv_call net = Fulfilled csv -> drep_call net = Fulfilled drep ->
     proposals_call net = Fulfilled proposals ->
     statusCode r = 200 /\ sent r = true /\
     payload r = JsonPayload (JObject [("spoDataCsv", JString csv); ("drepData", drep);
                                       ("proposalList", proposals)])).
Proof.
  intros Hm. cbn zeta. rewrite (aggregator_runs _ _ _ Hm). split; [split|].
  - destruct (Promise_all settle (promises net)) as [vs|e] eqn:HP; cbn; [|discriminate].
    intros _. apply Promise_all_fulfilled in HP. unfold promises in HP.
    destruct vs as [|v0 [|v1 [|v2 [|? ?]]]]; try discriminate.
    injection HP as H0 H1 H2.
    destruct (csv_call net) as [csv|]; [|discriminate]. by exists csv, v1, v2.
  - intros (csv & drep & proposals & H0 & H1 & H2).
    assert (Promise_all settle (promises net)
            = Fulfilled [JString csv; drep; proposals]) as ->; [|done].
    apply Promise_all_fulfilled. unfold promises. by rewrite H0, H1, H2.
  - intros csv drep proposals H0 H1 H2.
    assert (Promise_all settle (promises net)
            = Fulfilled [JString csv; drep; proposals]) as ->; [|done].
    apply Promise_all_fulfilled. unfold promises. by rewrite H0, H1, H2.
Qed.

Lemma success_iff_all_upstreams_succeed_witness :
  let r := response (run (handler Samples.all_up Samples.in_order Samples.get_request)) in
  statusCode r = 200 /\
  payload r = JsonPayload (JObject [("spoDataCsv", JString "pool,vote");
                                    ("drepData", JArray [JString "drep1"]);
                                    ("proposalList", JArray [JString "drep1"])]).
Proof.
  assert (method Samples.get_request <> "OPTIONS") as Hm by discriminate.
  destruct (success_iff_all_upstreams_succeed Samples.all_up Samples.in_order
              Samples.get_request Hm) as [_ Hall].
  destruct (Hall "pool,vote" (JArray [JString "drep1"]) (JArray [JString "drep1"]))
    as (H200 & _ & Hbody); [reflexivity..|].
  split; [exact H200 | exact Hbody].
Defined.


(** C9: every response of the aggregator, whatever the request and
    whatever the upstreams do, is sent with the three CORS headers; and an
    OPTIONS request is answered with status 200 and no body (and without
    any upstream call). *)
Theorem cors_headers_on_every_path (net : Network) (settle : nat -> nat) :
  (forall request : Request,
     let r := response (run (handler net settle request)) in
     sent r = true /\
     headers r !! "Access-Control-Allow-Origin" = Some "*" /\
     headers r !! "Access-Control-Allow-Methods" = Some "GET, OPTIONS" /\
     headers r !! "Access-Control-Allow-Headers" = Some "Content-Type") /\
  (forall b : option json,
     let w := run (handler net settle {| method := "OPTIONS"; body := b |}) in
     statusCode (response w) = 200 /\ payload (response w) = NoPayload /\
     sent (response w) = true /\ calls w = []).
Proof.
  split.
  - intros request. cbn zeta.
    destruct (decide (method request = "OPTIONS")) as [Hm | Hm].
    + rewrite (preflight_runs _ _ _ Hm). cbn. repeat split.
    + rewrite (aggregator_runs _ _ _ Hm).
      destruct (Promise_all settle (promises net)); cbn; repeat split.
  - intros b. cbn zeta. by rewrite preflight_runs.
Qed.

Lemma lone_rejection (settle : nat -> nat) (net : Network) (e : Error) (i : nat) :
  promises net !! i = Some (Rejected e) ->
  (forall j p, j <> i -> promises net !! j = Some p -> is_fulfilled p = true) ->
  Promise_all settle (promises net) = Rejected e.
Proof.
  intros Hi Hothers.
  destruct (Promise_all settle (promises net)) as [vs|e'] eqn:HP.
  - apply Promise_all_fulfilled in HP. rewrite HP in Hi.
    rewrite list_lookup_fmap in Hi. destruct (vs !! i); discriminate.
  - apply Promise_all_rejected, list_elem_of_lookup in HP as [j Hj].
    destruct (decide (j = i)) as [-> | Hne]; [congruence|].
    by apply Hothers in Hj.
Qed.

(** When several upstreams fail, [details] names the one whose promise
    rejects first. *)
Example earliest_rejection_wins :
  body_field "details"
    (response (run (handler Samples.all_down Samples.in_order Samples.get_request)))
  = Some (JString ("Failed to fetch " +:+ SPO_DATA_URL +:+ ": Not Found")) /\
  body_field "details"
    (response (run (handler Samples.all_down Samples.latest_first Samples.get_request)))
  = Some (JString ("Failed to fetch " +:+ PROPOSAL_LIST_URL +:+ ": Not Found")).
Proof. split; reflexivity. Qed.

(** C10: when exactly one upstream fails, and fails with a non-success
    HTTP status, the [details] field of the 500 response is
    ['Failed to fetch <url>: <statusText>'] for that upstream. *)
Theorem single_failure_names_the_upstream
    (net : Network) (settle : nat -> nat) (request : Request) :
  method request <> "OPTIONS" ->
  let r := response (run (handler net settle request)) in
  (forall resp,
     answers_with_error net SPO_DATA_URL resp ->
     is_fulfilled (drep_call net) = true -> is_fulfilled (proposals_call net) = true ->
     statusCode r = 500 /\
     body_field "details" r
     = Some (JString ("Failed to fetch " +:+ SPO_DATA_URL +:+ ": " +:+ statusText resp))) /\
  (forall resp,
     answers_with_error net DREP_DATA_URL resp ->
     is_fulfilled (csv_call net) = true -> is_fulfilled (proposals_call net) = true ->
     statusCode r = 500 /\
     body_field "details" r
     = Some (JString ("Failed to fetch " +:+ DREP_DATA_URL +:+ ": " +:+ statusText resp))) /\
  (forall resp,
     answers_with_error net PROPOSAL_LIST_URL resp ->
     is_fulfilled (csv_call net) = true -> is_fulfilled (drep_call net) = true ->
     statusCode r = 500 /\
     body_field "details" r
     = Some (JString ("Failed to fetch " +:+ PROPOSAL_LIST_URL +:+ ": "
                      +:+ statusText resp))).
Proof.
  intros Hm. cbn zeta. rewrite (aggregator_runs _ _ _ Hm).
  split; [|split]; intros resp Herr Ha Hb.
  - rewrite (lone_rejection settle net (fetch_failure SPO_DATA_URL resp) 0); [done| |].
    + unfold promises, csv_call. by rewrite (error_answer_rejects_text _ _ _ Herr).
    + intros [|[|[|j]]] p Hne; cbn; intros [= <-]; done.
  - rewrite (lone_rejection settle net (fetch_failure DREP_DATA_URL resp) 1); [done| |].
    + unfold promises, drep_call. by rewrite (error_answer_rejects_json _ _ _ Herr).
    + intros [|[|[|j]]] p Hne; cbn; intros [= <-]; try done.
      by destruct (csv_call net).
  - rewrite (lone_rejection settle net (fetch_failure PROPOSAL_LIST_URL resp) 2); [done| |].
    + unfold promises, proposals_call. by rewrite (error_answer_rejects_json _ _ _ Herr).
    + intros [|[|[|j]]] p Hne; cbn; intros [= <-]; try done.
      by destruct (csv_call net).
Qed.


Lemma single_failure_names_the_upstream_witness :
  body_field "details"
    (response (run (handler (Samples.down_at SPO_DATA_URL) Samples.in_order
                            Samples.get_request)))
  = Some (JString ("Failed to fetch " +:+ SPO_DATA_URL +:+ ": Not Found")) /\
  body_field "details"
    (response (run (handler (Samples.down_at DREP_DATA_URL) Samples.in_order
                            Samples.get_request)))
  = Some (JString ("Failed to fetch " +:+ DREP_DATA_URL +:+ ": Not Found")) /\
  body_field "details"
    (response (run (handler (Samples.down_at PROPOSAL_LIST_URL) Samples.in_order
                            Samples.get_request)))
  = Some (JString ("Failed to fetch " +:+ PROPOSAL_LIST_URL +:+ ": Not Found")).
Proof.
  assert (method Samples.get_request <> "OPTIONS") as Hm by discriminate.
  split; [|split].
  - apply (proj1 (single_failure_names_the_upstream (Samples.down_at SPO_DATA_URL)
                    Samples.in_order Samples.get_request Hm)
                 (Samples.failure 404 "Not Found" "missing"));
      [split; reflexivity | reflexivity | reflexivity].
  - apply (proj1 (proj2 (single_failure_names_the_upstream (Samples.down_at DREP_DATA_URL)
                           Samples.in_order Samples.get_request Hm))
                 (Samples.failure 404 "Not Found" "missing"));
      [split; reflexivity | reflexivity | reflexivity].
  - apply (proj2 (proj2 (single_failure_names_the_upstream
                           (Samples.down_at PROPOSAL_LIST_URL)
                           Samples.in_order Samples.get_request Hm))
                 (Samples.failure 404 "Not Found" "missing"));
      [split; reflexivity | reflexivity | reflexivity].
Defined.

End AggregatorFacts.

(** ** The relay's contract *)

Module RelayFacts.
Import Relay RelayView.

(** The handler, path by path. *)
Lemma relay_runs
    (JSON_stringify : json -> string) (env : gmap string string)
    (net : Network) (request : Request) :
  run (handler JSON_stringify env net request) =
  let quiet r := {| response := r; calls := []; console := [] |} in
  let forwarded r log :=
    {| response := r; calls := [forward_call JSON_stringify env request]; console := [log] |} in
  let unreachable e :=
    forwarded (error_reply 500 "Failed to fetch from Gemini API.")
              ("Error proxying request to Gemini:", LogError e) in
  if negb (String.eqb (method request) "POST") then
    quiet (error_reply 405 "Method Not Allowed")
  else if invalid_body (body request) then
    quiet (error_reply 400 "Invalid request body")
  else if missing_key (env !! "GEMINI_API_KEY") then
    quiet (error_reply 500 "API key not configured on the server.")
  else
    match net (forward_call JSON_stringify env request) with
    | NetworkFailure e => unreachable e
    | Responded r =>
        if ok r then
          match resp_json r with
          | Fulfilled data =>
              {| response := json_reply 200 data;
                 calls := [forward_call JSON_stringify env request]; console := [] |}
          | Rejected e => unreachable e
          end
        else
          match resp_text r with
          | Fulfilled errorBody =>
              forwarded (error_reply (status r) ("Gemini API error: " +:+ errorBody))
                        ("Gemini API Error:", LogText errorBody)
          | Rejected e => unreachable e
          end
    end.
Proof.
  unfold run, handler. cbn zeta.
  destruct (negb (method request =? "POST")); [reflexivity|].
  destruct (invalid_body (body request)); [reflexivity|].
  destruct (missing_key (env !! "GEMINI_API_KEY")); [reflexivity|].
  unfold try_catch, bind, fetch, await, set_status, send_json, console_error,
    update_response.
  fold (forward_call JSON_stringify env request). cbn.
  change {| call_url := _; call_init := _ |} with (forward_call JSON_stringify env request).
  destruct (net (forward_call JSON_stringify env request)) as [e|r]; [reflexivity|]. cbn.
  destruct (ok r); cbn.
  - destruct (resp_json r); reflexivity.
  - destruct (resp_text r); reflexivity.
Qed.

Lemma invalid_body_spec (b : option json) :
  invalid_body b = false <->
  exists fields c, b = Some (JObject fields)
                   /\ lookup_field "contents" fields = Some c /\ truthy (Some c) = true.
Proof.
  unfold invalid_body. split.
  - intros H. apply orb_false_elim in H as [Hb Hc].
    apply negb_false_iff in Hb, Hc.
    destruct b as [v|]; [|discriminate]. cbn in Hc.
    destruct v; cbn in Hc; try discriminate.
    destruct (lookup_field "contents" fields) as [c|] eqn:Hf; [|discriminate].
    by exists fields, c.
  - intros (fields & c & -> & Hf & Hc). cbn. by rewrite Hf, Hc.
Qed.

Example falsy_values :
  truthy <$> [None; Some JNull; Some (JBool false); Some (JNumber 0%float);
              Some (JNumber (-0)%float); Some (JNumber PrimFloat.nan); Some (JString "")]
  = [false; false; false; false; false; false; false].
Proof. reflexivity. Qed.

Example truthy_values :
  truthy <$> [Some (JBool true); Some (JNumber 1%float); Some (JString "0");
              Some (JArray []); Some (JObject [])]
  = [true; true; true; true; true].
Proof. reflexivity. Qed.

(** C6: a request whose method is not POST is answered 405 with
    [{error: 'Method Not Allowed'}], and no outbound call is made. *)
Theorem other_methods_are_rejected
    (JSON_stringify : json -> string) (env : gmap string string)
    (net : Network) (request : Request) :
  method request <> "POST" ->
  let w := run (handler JSON_stringify env net request) in
  response w = error_reply 405 "Method Not Allowed" /\ calls w = [].
Proof.
  intros Hm. apply String.eqb_neq in Hm. cbn zeta.
  rewrite relay_runs, Hm. done.
Qed.

Lemma other_methods_are_rejected_witness :
  let w := run (handler Samples.stringify (Samples.with_key "k3y") Samples.gemini_up
      Samples.get_request) in
  response w = error_reply 405 "Method Not Allowed" /\ calls w = [].
Proof.
  apply (other_methods_are_rejected Samples.stringify (Samples.with_key "k3y") Samples.gemini_up
           Samples.get_request).
  discriminate.
Defined.


(** C7, as the code has it: a POST whose body passes validation, on a server where
    GEMINI_API_KEY is not set (or is empty), is answered 500 with
    [{error: 'API key not configured on the server.'}], and no outbound
    call is made. *)
Theorem missing_credential_is_reported
    (JSON_stringify : json -> string) (env : gmap string string) (net : Network) (request : Request)
    (fields : list (string * json)) (contents : json) :
  method request = "POST" ->
  body request = Some (JObject fields) ->
  lookup_field "contents" fields = Some contents ->
  truthy (Some contents) = true ->
  env !! "GEMINI_API_KEY" = None \/ env !! "GEMINI_API_KEY" = Some "" ->
  let w := run (handler JSON_stringify env net request) in
  response w = error_reply 500 "API key not configured on the server." /\ calls w = [].
Proof.
  intros Hm Hb Hf Hc Hkey. apply String.eqb_eq in Hm. cbn zeta.
  rewrite relay_runs, Hm. cbn.
  assert (invalid_body (body request) = false) as ->.
  { apply invalid_body_spec. eauto. }
  assert (missing_key (env !! "GEMINI_API_KEY") = true) as ->.
  { by destruct Hkey as [-> | ->]. }
  done.
Qed.

Lemma missing_credential_is_reported_witness :
  let w := run (handler Samples.stringify ∅ Samples.gemini_up (Samples.post Samples.prompt)) in
  response w = error_reply 500 "API key not configured on the server." /\ calls w = [].
Proof.
  apply (missing_credential_is_reported Samples.stringify ∅ Samples.gemini_up (Samples.post
      Samples.prompt)
           [("contents",
             JArray [JObject [("parts", JArray [JObject [("text", JString "hi")]])]])]
           (JArray [JObject [("parts", JArray [JObject [("text", JString "hi")]])]])).
  - reflexivity.
  - reflexivity.
  - reflexivity.
  - reflexivity.
  - left. reflexivity.
Defined.


(** A body that has a [contents] field, but an empty one, on a server
    without a key: the answer is the 400 of the validation, which comes
    first, not the 500 of the missing key. *)
Lemma empty_contents_without_key_is_400 :
  let payload := JObject [("contents", JString "")] in
  let env : gmap string string := ∅ in
  let w := run (handler Samples.stringify env Samples.gemini_up (Samples.post payload)) in
  has_field "contents" payload = true
  /\ env !! "GEMINI_API_KEY" = None
  /\ response w = error_reply 400 "Invalid request body"
  /\ response w <> error_reply 500 "API key not configured on the server.".
Proof. vm_compute. repeat split. discriminate. Qed.

(** An outbound call is made only on the forward step, and it is the
    one call to the Gemini endpoint. *)
Lemma outbound_call_is_forward
    (JSON_stringify : json -> string) (env : gmap string string)
    (net : Network) (request : Request) (c : OutboundCall) :
  c ∈ calls (run (handler JSON_stringify env net request)) ->
  c = forward_call JSON_stringify env request
  /\ negb (String.eqb (method request) "POST") = false
  /\ invalid_body (body request) = false
  /\ missing_key (env !! "GEMINI_API_KEY") = false.
Proof.
  rewrite relay_runs. cbn zeta.
  destruct (negb _); [by intros ?%elem_of_nil|].
  destruct (invalid_body _); [by intros ?%elem_of_nil|].
  destruct (missing_key _); [by intros ?%elem_of_nil|].
  intros Hin. split; [|done].
  destruct (net (forward_call JSON_stringify env request)) as [e|r];
    [|destruct (ok r), (resp_json r), (resp_text r)];
    cbn in Hin; by apply list_elem_of_singleton in Hin.
Qed.

(** C8: when the outbound call itself throws, the answer is 500 with
    exactly [{error: 'Failed to fetch from Gemini API.'}]; the thrown
    error goes to the server log only. *)
Theorem network_failure_is_generic
    (JSON_stringify : json -> string) (env : gmap string string) (net : Network) (request : Request)
    (c : OutboundCall) (e : Error) :
  let w := run (handler JSON_stringify env net request) in
  c ∈ calls w ->
  net c = NetworkFailure e ->
  response w = error_reply 500 "Failed to fetch from Gemini API."
  /\ console w = [("Error proxying request to Gemini:", LogError e)].
Proof.
  cbn zeta. intros Hin Hnet.
  apply outbound_call_is_forward in Hin as (-> & Hm & Hb & Hk).
  rewrite relay_runs, Hm, Hb, Hk, Hnet. done.
Qed.

Lemma network_failure_is_generic_witness :
  let w := run (handler Samples.stringify (Samples.with_key "k3y") Samples.unreachable
                        (Samples.post Samples.prompt)) in
  response w = error_reply 500 "Failed to fetch from Gemini API."
  /\ console w = [("Error proxying request to Gemini:", LogError (mkError "fetch failed"))].
Proof.
  apply (network_failure_is_generic Samples.stringify (Samples.with_key "k3y") Samples.unreachable
           (Samples.post Samples.prompt)
           (forward_call Samples.stringify (Samples.with_key "k3y") (Samples.post Samples.prompt))
           (mkError "fetch failed")).
  - apply list_elem_of_here.
  - reflexivity.
Defined.


(** C4: when the outbound call is answered, a non-success answer whose
    body text is [t] is forwarded with the same status and the body
    [{error: 'Gemini API error: ' + t}], and a success answer whose body
    parses to [data] is answered 200 with [data] itself. *)
Theorem upstream_answer_is_forwarded
    (JSON_stringify : json -> string) (env : gmap string string) (net : Network) (request : Request)
    (c : OutboundCall) (r : FetchResponse) :
  let w := run (handler JSON_stringify env net request) in
  c ∈ calls w ->
  net c = Responded r ->
  (forall errorBody, ok r = false -> resp_text r = Fulfilled errorBody ->
     response w = error_reply (status r) ("Gemini API error: " +:+ errorBody)) /\
  (forall data, ok r = true -> resp_json r = Fulfilled data ->
     response w = json_reply 200 data).
Proof.
  cbn zeta. intros Hin Hnet.
  apply outbound_call_is_forward in Hin as (-> & Hm & Hb & Hk).
  rewrite relay_runs, Hm, Hb, Hk, Hnet. cbn.
  split; intros ? Hok Hbody; rewrite Hok, Hbody; done.
Qed.

Lemma upstream_answer_is_forwarded_witness :
  response (run (handler Samples.stringify (Samples.with_key "k3y") Samples.gemini_quota
                         (Samples.post Samples.prompt)))
  = error_reply 503 "Gemini API error: quota exceeded" /\
  response (run (handler Samples.stringify (Samples.with_key "k3y") Samples.gemini_up
                         (Samples.post Samples.prompt)))
  = json_reply 200 Samples.candidates.
Proof.
  split.
  - apply (proj1 (upstream_answer_is_forwarded Samples.stringify (Samples.with_key "k3y")
                    Samples.gemini_quota (Samples.post Samples.prompt)
                    (forward_call Samples.stringify (Samples.with_key "k3y") (Samples.post
                        Samples.prompt))
                    (Samples.failure 503 "Service Unavailable" "quota exceeded")
                    (list_elem_of_here _ _) eq_refl) "quota exceeded");
      reflexivity.
  - apply (proj2 (upstream_answer_is_forwarded Samples.stringify (Samples.with_key "k3y")
                    Samples.gemini_up (Samples.post Samples.prompt)
                    (forward_call Samples.stringify (Samples.with_key "k3y") (Samples.post
                        Samples.prompt))
                    (Samples.success "" Samples.candidates)
                    (list_elem_of_here _ _) eq_refl) Samples.candidates);
      reflexivity.
Defined.


(** C5, as the code has it: a POST is answered 400 with
    [{error: 'Invalid request body'}] exactly when its body is not an
    object with a truthy [contents] property; no outbound call is made
    then. *)
Theorem payload_validation
    (JSON_stringify : json -> string) (env : gmap string string)
    (net : Network) (request : Request) :
  method request = "POST" ->
  let w := run (handler JSON_stringify env net request) in
  (response w = error_reply 400 "Invalid request body" <->
   ~ exists fields contents,
       body request = Some (JObject fields)
       /\ lookup_field "contents" fields = Some contents
       /\ truthy (Some contents) = true) /\
  (response w = error_reply 400 "Invalid request body" -> calls w = []).
Proof.
  intros Hm. apply String.eqb_eq in Hm. cbn zeta.
  rewrite <- invalid_body_spec, relay_runs, Hm. cbn.
  destruct (invalid_body (body request)); [done|].
  assert (forall w : World, response w <> error_reply 400 "Invalid request body" ->
            (response w = error_reply 400 "Invalid request body" <-> false <> false)
            /\ (response w = error_reply 400 "Invalid request body" -> calls w = []))
    as Hother by (intros w Hne; split; [split|]; done).
  apply Hother.
  destruct (missing_key _); [discriminate|].
  destruct (net (forward_call JSON_stringify env request)) as [e|r]; [discriminate|].
  destruct (ok r), (resp_json r), (resp_text r); discriminate.
Qed.

Lemma payload_validation_witness :
  response (run (handler Samples.stringify (Samples.with_key "k3y") Samples.gemini_up
                         (Samples.post (JObject [("prompt", JString "hi")]))))
  = error_reply 400 "Invalid request body".
Proof.
  apply (proj1 (payload_validation Samples.stringify (Samples.with_key "k3y") Samples.gemini_up
                  (Samples.post (JObject [("prompt", JString "hi")])) eq_refl)).
  intros (fields & contents & Hbody & Hfield & _).
  injection Hbody as <-. discriminate Hfield.
Defined.

(** A body that has a [contents] field, but an empty one, is rejected
    too. *)
Lemma empty_contents_is_rejected :
  let payload := JObject [("contents", JString "")] in
  let w := run (handler Samples.stringify (Samples.with_key "k3y") Samples.gemini_up
      (Samples.post payload)) in
  has_field "contents" payload = true
  /\ response w = error_reply 400 "Invalid request body" /\ calls w = [].
Proof. vm_compute. repeat split. Qed.


(** C3: the failing input.  The server holds the key [AIzaSy-s3cret]; the
    upstream answers the forwarded request with status 400 and an error
    text that names the key it was called with.  The relay sends that text
    on: the error message of the client's response contains the key. *)
Theorem echoed_credential_reaches_the_client :
  let env := Samples.with_key "AIzaSy-s3cret" in
  let w := run (handler Samples.stringify env Samples.gemini_echo
                        (Samples.post Samples.prompt)) in
  env !! "GEMINI_API_KEY" = Some "AIzaSy-s3cret"
  /\ call_url <$> calls w = [GEMINI_ENDPOINT +:+ "AIzaSy-s3cret"]
  /\ response w = error_reply 400 "Gemini API error: API key not valid: AIzaSy-s3cret"
  /\ contains "AIzaSy-s3cret" "Gemini API error: API key not valid: AIzaSy-s3cret" = true.
Proof. vm_compute. repeat split. Qed.

(** The response does not depend on the value of the credential: two
    servers with different keys whose upstreams answer alike reply
    alike. *)
Lemma response_independent_of_credential
    (JSON_stringify : json -> string) (env1 env2 : gmap string string)
    (net1 net2 : Network) (request : Request) :
  missing_key (env1 !! "GEMINI_API_KEY") = missing_key (env2 !! "GEMINI_API_KEY") ->
  net1 (forward_call JSON_stringify env1 request)
  = net2 (forward_call JSON_stringify env2 request) ->
  response (run (handler JSON_stringify env1 net1 request))
  = response (run (handler JSON_stringify env2 net2 request)).
Proof.
  intros Hkey Hnet. rewrite !relay_runs. cbn zeta. rewrite Hkey, Hnet.
  destruct (negb (method request =? "POST")); [reflexivity|].
  destruct (invalid_body (body request)); [reflexivity|].
  destruct (missing_key (env2 !! "GEMINI_API_KEY")); [reflexivity|].
  destruct (net2 (forward_call JSON_stringify env2 request)) as [e|r]; [reflexivity|].
  destruct (ok r), (resp_json r), (resp_text r); reflexivity.
Qed.

End RelayFacts.

(** ** More on the aggregator *)

Module AggregatorMore.
Import Aggregator AggregatorView PromiseFacts AggregatorFacts MoreSamples.

Lemma text_outcome (net : Network) (url : string) :
  outcome (fetchText net url)
  = match net (get url) with
    | NetworkFailure e => Rejected e
    | Responded r => if ok r then resp_text r else Rejected (fetch_failure url r)
    end.
Proof.
  unfold outcome, fetchText, bind, fetch, throw, await, get. cbn.
  destruct (net _) as [e|r]; cbn; [done|]. by destruct (ok r).
Qed.

Lemma json_outcome (net : Network) (url : string) :
  outcome (fetchJson net url)
  = match net (get url) with
    | NetworkFailure e => Rejected e
    | Responded r => if ok r then resp_json r else Rejected (fetch_failure url r)
    end.
Proof.
  unfold outcome, fetchJson, bind, fetch, throw, await, get. cbn.
  destruct (net _) as [e|r]; cbn; [done|]. by destruct (ok r).
Qed.

(** X1: [fetchJson(url)] makes exactly one GET to [url], without options,
    and changes nothing else.  It resolves to [v] exactly when the answer is
    ok and its JSON body is [v]; it rejects with the network error, with
    ['Failed to fetch <url>: <statusText>'] on an answer that is not ok, or
    with the parse error of an ok answer. *)
Theorem fetchJson_contract (net : Network) (url : string) (w : World) :
  (fetchJson net url w).2
  = {| response := response w; calls := calls w ++ [get url]; console := console w |} /\
  (forall v, (fetchJson net url w).1 = Fulfilled v <->
     exists r, net (get url) = Responded r /\ ok r = true /\ resp_json r = Fulfilled v) /\
  (forall e, (fetchJson net url w).1 = Rejected e <->
     net (get url) = NetworkFailure e \/
     exists r, net (get url) = Responded r /\
       (ok r = false /\ e = mkError ("Failed to fetch " +:+ url +:+ ": " +:+ statusText r)
        \/ ok r = true /\ resp_json r = Rejected e)).
Proof.
  rewrite fetchJson_runs, json_outcome. cbn [fst snd]. split; [done|].
  destruct (net (get url)) as [e0|r] eqn:Hnet.
  - split; [intros v | intros e]; split.
    + discriminate.
    + intros (r & [=] & _).
    + intros [= ->]. by left.
    + intros [[= ->] | (r & [=] & _)]. done.
  - unfold fetch_failure. split; [intros v | intros e]; split.
    + intros H. exists r. destruct (ok r); [done | discriminate].
    + intros (r' & [= <-] & Hok & Hv). by rewrite Hok.
    + intros H. right. exists r. split; [done|].
      destruct (ok r); [by right | left]. split; [done|]. by injection H.
    + intros [[=] | (r' & [= <-] & [[Hok ->] | [Hok Hv]])]; by rewrite Hok.
Qed.

(** X2: [fetchText(url)] makes exactly one GET to [url], without options,
    and changes nothing else.  It resolves to the body text of an ok
    answer, unparsed, whatever the body is; it rejects with the network
    error, with ['Failed to fetch <url>: <statusText>'] on an answer that
    is not ok, or with the error of reading the body. *)
Theorem fetchText_contract (net : Network) (url : string) (w : World) :
  (fetchText net url w).2
  = {| response := response w; calls := calls w ++ [get url]; console := console w |} /\
  (forall t, (fetchText net url w).1 = Fulfilled t <->
     exists r, net (get url) = Responded r /\ ok r = true /\ resp_text r = Fulfilled t) /\
  (forall e, (fetchText net url w).1 = Rejected e <->
     net (get url) = NetworkFailure e \/
     exists r, net (get url) = Responded r /\
       (ok r = false /\ e = mkError ("Failed to fetch " +:+ url +:+ ": " +:+ statusText r)
        \/ ok r = true /\ resp_text r = Rejected e)).
Proof.
  rewrite fetchText_runs, text_outcome. cbn [fst snd]. split; [done|].
  destruct (net (get url)) as [e0|r] eqn:Hnet.
  - split; [intros v | intros e]; split.
    + discriminate.
    + intros (r & [=] & _).
    + intros [= ->]. by left.
    + intros [[= ->] | (r & [=] & _)]. done.
  - unfold fetch_failure. split; [intros v | intros e]; split.
    + intros H. exists r. destruct (ok r); [done | discriminate].
    + intros (r' & [= <-] & Hok & Hv). by rewrite Hok.
    + intros H. right. exists r. split; [done|].
      destruct (ok r); [by right | left]. split; [done|]. by injection H.
    + intros [[=] | (r' & [= <-] & [[Hok ->] | [Hok Hv]])]; by rewrite Hok.
Qed.

(** X3: a request other than OPTIONS always starts all three fetches, once
    each and in the order CSV, directory, proposal list, whether or not
    any of them fails. *)
Theorem all_three_fetches_are_started
    (net : Network) (settle : nat -> nat) (request : Request) :
  method request <> "OPTIONS" ->
  calls (run (handler net settle request))
  = [get SPO_DATA_URL; get DREP_DATA_URL; get PROPOSAL_LIST_URL].
Proof.
  intros Hm. rewrite (aggregator_runs _ _ _ Hm). cbn zeta.
  by destruct (Promise_all settle (promises net)).
Qed.

Lemma all_three_fetches_are_started_witness :
  calls (run (handler Samples.all_down Samples.in_order Samples.get_request))
  = [get SPO_DATA_URL; get DREP_DATA_URL; get PROPOSAL_LIST_URL].
Proof.
  apply (all_three_fetches_are_started Samples.all_down Samples.in_order
           Samples.get_request).
  discriminate.
Defined.

(** X4: the aggregator's handler never rejects: whatever the request and
    the upstreams, it returns normally after sending a response whose
    status is 200 or 500 and whose headers are the three CORS headers and
    no other. *)
Theorem aggregator_always_answers
    (net : Network) (settle : nat -> nat) (request : Request) :
  (handler net settle request initial_world).1 = Fulfilled tt /\
  let r := response (run (handler net settle request)) in
  sent r = true /\ (statusCode r = 200 \/ statusCode r = 500) /\ headers r = cors_headers.
Proof.
  split.
  - unfold handler, bind, try_catch, start, setHeader, set_status, send_json, send_end,
      console_error, update_response, await, ret.
    cbn -[object_literal outcome Promise_all].
    destruct (method request =? "OPTIONS"); [reflexivity|].
    rewrite fetchText_runs.
    destruct (outcome (fetchText net SPO_DATA_URL));
      cbn -[object_literal outcome Promise_all];
      rewrite fetchJson_runs; cbn -[object_literal outcome Promise_all];
      rewrite fetchJson_runs; cbn -[object_literal outcome Promise_all];
      destruct (Promise_all (A:=json) settle _); reflexivity.
  - cbn zeta. destruct (decide (method request = "OPTIONS")) as [Hm | Hm].
    + rewrite (preflight_runs _ _ _ Hm). cbn. auto.
    + rewrite (aggregator_runs _ _ _ Hm).
      destruct (Promise_all settle (promises net)); cbn; auto.
Qed.

(** X5: apart from OPTIONS, the aggregator reads neither the method nor
    the body of the request: any two such requests are answered alike, with
    the same outbound calls and the same log. *)
Theorem method_and_body_are_ignored
    (net : Network) (settle : nat -> nat) (request1 request2 : Request) :
  method request1 <> "OPTIONS" -> method request2 <> "OPTIONS" ->
  run (handler net settle request1) = run (handler net settle request2).
Proof. intros H1 H2. by rewrite !aggregator_runs. Qed.

Lemma method_and_body_are_ignored_witness :
  run (handler Samples.all_up Samples.in_order Samples.get_request)
  = run (handler Samples.all_up Samples.in_order delete_request).
Proof.
  apply (method_and_body_are_ignored Samples.all_up Samples.in_order
           Samples.get_request delete_request); discriminate.
Defined.


Lemma rejections_complete {A} (ps : list (Result A)) (i j : nat) (e : Error) :
  ps !! j = Some (Rejected e) -> (i + j, e)%nat ∈ rejections i ps.
Proof.
  revert i j. induction ps as [|p ps IH]; intros i j Hj; [done|].
  destruct j as [|j]; cbn in Hj.
  - injection Hj as ->. cbn. rewrite Nat.add_0_r. apply list_elem_of_here.
  - replace (i + S j)%nat with (S i + j)%nat by lia.
    destruct p; cbn [rejections]; [|apply list_elem_of_further]; by apply IH.
Qed.

Lemma earliest_is_minimal (settle : nat -> nat) (r : nat * Error) (rs : list (nat * Error)) :
  forall c, c ∈ r :: rs -> (settle (foldl (earlier settle) r rs).1 <= settle c.1)%nat.
Proof.
  revert r. induction rs as [|c' rs IH]; intros r c Hin; cbn.
  - apply list_elem_of_singleton in Hin as ->. done.
  - assert (settle (earlier settle r c').1 <= settle r.1
            /\ settle (earlier settle r c').1 <= settle c'.1)%nat as [Hr Hc'].
    { unfold earlier. destruct (Nat.ltb_spec (settle c'.1) (settle r.1)); lia. }
    pose proof (IH (earlier settle r c') _ (list_elem_of_here _ _)) as Hbest.
    apply elem_of_cons in Hin as [-> | Hin]; [lia|].
    apply elem_of_cons in Hin as [-> | Hin]; [lia|].
    apply IH. by apply list_elem_of_further.
Qed.

(** [Promise.all] rejects with the reason of a promise that no other
    rejected promise precedes in time. *)
Lemma Promise_all_earliest {A} (settle : nat -> nat) (ps : list (Result A)) (e : Error) :
  Promise_all settle ps = Rejected e ->
  exists i, ps !! i = Some (Rejected e) /\
    forall j e', ps !! j = Some (Rejected e') -> (settle i <= settle j)%nat.
Proof.
  unfold Promise_all. destruct (rejections 0 ps) as [|r rs] eqn:Hr; [done|].
  intros [= <-].
  pose proof (earliest_among settle r rs) as Hin. rewrite <- Hr in Hin.
  destruct (foldl (earlier settle) r rs) as [i e] eqn:Hbest. cbn.
  apply rejections_lookup in Hin as (k & -> & Hk). exists k. split; [done|].
  intros j e' Hj. apply (rejections_complete _ 0%nat) in Hj. rewrite Hr in Hj.
  apply (earliest_is_minimal settle) in Hj. by rewrite Hbest in Hj.
Qed.

(** X6: when the aggregation fails, [details] is the message of an
    upstream call that failed and that no other failed call preceded in
    time (index 0 is the CSV, 1 the directory, 2 the proposal list). *)
Theorem earliest_failure_is_reported
    (net : Network) (settle : nat -> nat) (request : Request) :
  method request <> "OPTIONS" ->
  all_succeed net = false ->
  exists (i : nat) (e : Error),
    promises net !! i = Some (Rejected e) /\
    (forall j e', promises net !! j = Some (Rejected e') -> (settle i <= settle j)%nat) /\
    body_field "details" (response (run (handler net settle request)))
    = Some (JString (message e)).
Proof.
  intros Hm Hfail. rewrite (aggregator_runs _ _ _ Hm).
  rewrite <- promises_all_fulfilled in Hfail.
  destruct (Promise_all_rejects settle _ Hfail) as [e He].
  destruct (Promise_all_earliest _ _ _ He) as (i & Hi & Hmin).
  exists i, e. rewrite He. done.
Qed.

Lemma earliest_failure_is_reported_witness :
  exists (i : nat) (e : Error),
    promises Samples.all_down !! i = Some (Rejected e) /\
    (forall j e', promises Samples.all_down !! j = Some (Rejected e') ->
                  (Samples.latest_first i <= Samples.latest_first j)%nat) /\
    body_field "details"
      (response (run (handler Samples.all_down Samples.latest_first Samples.get_request)))
    = Some (JString (message e)).
Proof.
  apply (earliest_failure_is_reported Samples.all_down Samples.latest_first
           Samples.get_request).
  - discriminate.
  - reflexivity.
Defined.

(** X7: the aggregator logs nothing when it answers 200, and when it
    answers 500 it logs exactly one entry, the error whose message it sends
    as [details]. *)
Theorem only_failures_are_logged
    (net : Network) (settle : nat -> nat) (request : Request) :
  let w := run (handler net settle request) in
  (statusCode (response w) = 200 -> console w = []) /\
  (statusCode (response w) = 500 ->
   exists e, console w = [("Error fetching initial data:", LogError e)]
             /\ body_field "details" (response w) = Some (JString (message e))).
Proof.
  cbn zeta. destruct (decide (method request = "OPTIONS")) as [Hm | Hm].
  - rewrite (preflight_runs _ _ _ Hm). cbn. split; [done | discriminate].
  - rewrite (aggregator_runs _ _ _ Hm).
    destruct (Promise_all settle (promises net)) as [vs|e]; cbn.
    + split; [done | discriminate].
    + split; [discriminate|]. intros _. by exists e.
Qed.

Lemma only_failures_are_logged_witness :
  console (run (handler Samples.all_up Samples.in_order Samples.get_request)) = [] /\
  exists e,
    console (run (handler Samples.all_down Samples.in_order Samples.get_request))
    = [("Error fetching initial data:", LogError e)].
Proof.
  split.
  - apply (proj1 (only_failures_are_logged Samples.all_up Samples.in_order
                    Samples.get_request)).
    reflexivity.
  - destruct (proj2 (only_failures_are_logged Samples.all_down Samples.in_order
                       Samples.get_request)) as (e & Hlog & _); [reflexivity|].
    by exists e.
Defined.

(** X8: an ok answer of a JSON upstream whose body does not parse fails
    the whole aggregation like an error status does: when the other calls
    succeed, the answer is 500 and [details] is the parser's message. *)
Theorem unparseable_json_fails_the_aggregation
    (net : Network) (settle : nat -> nat) (request : Request) (r : FetchResponse) (e : Error) :
  method request <> "OPTIONS" ->
  ok r = true -> resp_json r = Rejected e ->
  let reply := response (run (handler net settle request)) in
  (net (get DREP_DATA_URL) = Responded r ->
   is_fulfilled (csv_call net) = true -> is_fulfilled (proposals_call net) = true ->
   statusCode reply = 500 /\ body_field "details" reply = Some (JString (message e))) /\
  (net (get PROPOSAL_LIST_URL) = Responded r ->
   is_fulfilled (csv_call net) = true -> is_fulfilled (drep_call net) = true ->
   statusCode reply = 500 /\ body_field "details" reply = Some (JString (message e))).
Proof.
  intros Hm Hok Hjson. cbn zeta. rewrite (aggregator_runs _ _ _ Hm).
  split; intros Hnet Ha Hb.
  - rewrite (lone_rejection settle net e 1); [done| |].
    + unfold promises, drep_call. by rewrite json_outcome, Hnet, Hok, Hjson.
    + intros [|[|[|j]]] p Hne; cbn; intros [= <-]; try done.
      by destruct (csv_call net).
  - rewrite (lone_rejection settle net e 2); [done| |].
    + unfold promises, proposals_call. by rewrite json_outcome, Hnet, Hok, Hjson.
    + intros [|[|[|j]]] p Hne; cbn; intros [= <-]; try done.
      by destruct (csv_call net).
Qed.

Lemma unparseable_json_fails_the_aggregation_witness :
  body_field "details"
    (response (run (handler (garbled_at DREP_DATA_URL) Samples.in_order Samples.get_request)))
  = Some (JString "Unexpected token < in JSON at position 0") /\
  body_field "details"
    (response (run (handler (garbled_at PROPOSAL_LIST_URL) Samples.in_order
                            Samples.get_request)))
  = Some (JString "Unexpected token < in JSON at position 0").
Proof.
  assert (method Samples.get_request <> "OPTIONS") as Hm by discriminate.
  split.
  - apply (proj1 (unparseable_json_fails_the_aggregation (garbled_at DREP_DATA_URL)
                    Samples.in_order Samples.get_request (garbled "<html>")
                    (mkError "Unexpected token < in JSON at position 0")
                    Hm eq_refl eq_refl)); reflexivity.
  - apply (proj2 (unparseable_json_fails_the_aggregation (garbled_at PROPOSAL_LIST_URL)
                    Samples.in_order Samples.get_request (garbled "<html>")
                    (mkError "Unexpected token < in JSON at position 0")
                    Hm eq_refl eq_refl)); reflexivity.
Defined.

(** X9: when one upstream cannot be reached at all and the other two calls
    succeed, the answer is 500 and [details] is the message of the error
    that [fetch] threw, as it is. *)
Theorem network_error_message_is_exposed
    (net : Network) (settle : nat -> nat) (request : Request) (e : Error) :
  method request <> "OPTIONS" ->
  let reply := response (run (handler net settle request)) in
  (net (get SPO_DATA_URL) = NetworkFailure e ->
   is_fulfilled (drep_call net) = true -> is_fulfilled (proposals_call net) = true ->
   statusCode reply = 500 /\ body_field "details" reply = Some (JString (message e))) /\
  (net (get DREP_DATA_URL) = NetworkFailure e ->
   is_fulfilled (csv_call net) = true -> is_fulfilled (proposals_call net) = true ->
   statusCode reply = 500 /\ body_field "details" reply = Some (JString (message e))) /\
  (net (get PROPOSAL_LIST_URL) = NetworkFailure e ->
   is_fulfilled (csv_call net) = true -> is_fulfilled (drep_call net) = true ->
   statusCode reply = 500 /\ body_field "details" reply = Some (JString (message e))).
Proof.
  intros Hm. cbn zeta. rewrite (aggregator_runs _ _ _ Hm).
  split; [|split]; intros Hnet Ha Hb.
  - rewrite (lone_rejection settle net e 0); [done| |].
    + unfold promises, csv_call. by rewrite text_outcome, Hnet.
    + intros [|[|[|j]]] p Hne; cbn; intros [= <-]; done.
  - rewrite (lone_rejection settle net e 1); [done| |].
    + unfold promises, drep_call. by rewrite json_outcome, Hnet.
    + intros [|[|[|j]]] p Hne; cbn; intros [= <-]; try done.
      by destruct (csv_call net).
  - rewrite (lone_rejection settle net e 2); [done| |].
    + unfold promises, proposals_call. by rewrite json_outcome, Hnet.
    + intros [|[|[|j]]] p Hne; cbn; intros [= <-]; try done.
      by destruct (csv_call net).
Qed.

Lemma network_error_message_is_exposed_witness :
  body_field "details"
    (response (run (handler (offline_at SPO_DATA_URL) Samples.in_order Samples.get_request)))
  = Some (JString "fetch failed") /\
  body_field "details"
    (response (run (handler (offline_at DREP_DATA_URL) Samples.in_order Samples.get_request)))
  = Some (JString "fetch failed") /\
  body_field "details"
    (response (run (handler (offline_at PROPOSAL_LIST_URL) Samples.in_order
                            Samples.get_request)))
  = Some (JString "fetch failed").
Proof.
  assert (method Samples.get_request <> "OPTIONS") as Hm by discriminate.
  split; [|split].
  - apply (proj1 (network_error_message_is_exposed (offline_at SPO_DATA_URL)
                    Samples.in_order Samples.get_request (mkError "fetch failed") Hm));
      reflexivity.
  - apply (proj1 (proj2 (network_error_message_is_exposed (offline_at DREP_DATA_URL)
                    Samples.in_order Samples.get_request (mkError "fetch failed") Hm)));
      reflexivity.
  - apply (proj2 (proj2 (network_error_message_is_exposed (offline_at PROPOSAL_LIST_URL)
                    Samples.in_order Samples.get_request (mkError "fetch failed") Hm)));
      reflexivity.
Defined.


(** X10: the order in which the upstreams settle changes nothing but the
    [details] text (and the logged error): status, headers, outbound calls
    and the [error] field are the same for any two orders, and a 200
    answer is the same altogether. *)
Theorem timing_changes_details_only
    (net : Network) (settle1 settle2 : nat -> nat) (request : Request) :
  let w1 := run (handler net settle1 request) in
  let w2 := run (handler net settle2 request) in
  statusCode (response w1) = statusCode (response w2) /\
  headers (response w1) = headers (response w2) /\
  calls w1 = calls w2 /\
  body_field "error" (response w1) = body_field "error" (response w2) /\
  (statusCode (response w1) = 200 -> w1 = w2).
Proof.
  cbn zeta. destruct (decide (method request = "OPTIONS")) as [Hm | Hm].
  - by rewrite !(preflight_runs _ _ _ Hm).
  - rewrite !(aggregator_runs _ _ _ Hm). cbn zeta. unfold Promise_all.
    destruct (rejections 0 (promises net)); cbn; [done|].
    repeat split. discriminate.
Qed.

Lemma timing_changes_details_only_witness :
  run (handler Samples.all_up Samples.in_order Samples.get_request)
  = run (handler Samples.all_up Samples.latest_first Samples.get_request).
Proof.
  apply (timing_changes_details_only Samples.all_up Samples.in_order Samples.latest_first
           Samples.get_request).
  reflexivity.
Defined.

End AggregatorMore.

(** ** More on the relay *)

Module RelayMore.
Import Relay RelayView RelayFacts MoreSamples.

(** X11: a POST that passes validation on a server with a key makes exactly
    one outbound call, whatever the upstream then does: a POST to the Gemini
    endpoint with the key as the [key] query parameter, the header
    [Content-Type: application/json], and as its body [JSON.stringify] of
    the inbound body as a whole: the relay itself adds, removes and rewrites
    no field. *)
Theorem whole_body_is_serialised_and_forwarded
    (JSON_stringify : json -> string) (env : gmap string string) (net : Network)
    (request : Request) (fields : list (string * json)) (contents : json) (apiKey : string) :
  method request = "POST" ->
  body request = Some (JObject fields) ->
  lookup_field "contents" fields = Some contents ->
  truthy (Some contents) = true ->
  env !! "GEMINI_API_KEY" = Some apiKey ->
  apiKey <> "" ->
  calls (run (handler JSON_stringify env net request))
  = [{| call_url := GEMINI_ENDPOINT +:+ apiKey;
        call_init := Some {| init_method := "POST";
                             init_headers := [("Content-Type", "application/json")];
                             init_body := Some (JSON_stringify (JObject fields)) |} |}].
Proof.
  intros Hm Hb Hf Hc Hkey Hne. apply String.eqb_eq in Hm. apply String.eqb_neq in Hne.
  rewrite relay_runs, Hm. cbn zeta. cbn [negb].
  assert (invalid_body (body request) = false) as ->.
  { apply invalid_body_spec. eauto. }
  assert (missing_key (env !! "GEMINI_API_KEY") = false) as ->.
  { rewrite Hkey. unfold missing_key. cbn. by rewrite Hne. }
  assert (forward_call JSON_stringify env request
          = {| call_url := GEMINI_ENDPOINT +:+ apiKey;
               call_init := Some {| init_method := "POST";
                                    init_headers := [("Content-Type", "application/json")];
                                    init_body := Some (JSON_stringify (JObject fields)) |} |})
    as ->.
  { unfold forward_call, forward_init. by rewrite Hkey, Hb. }
  destruct (net _) as [e|r]; [done|].
  by destruct (ok r), (resp_json r), (resp_text r).
Qed.

Lemma whole_body_is_serialised_and_forwarded_witness :
  calls (run (handler Samples.stringify (Samples.with_key "k3y") Samples.unreachable
                      (Samples.post Samples.prompt)))
  = [{| call_url := GEMINI_ENDPOINT +:+ "k3y";
        call_init := Some {| init_method := "POST";
                             init_headers := [("Content-Type", "application/json")];
                             init_body := Some (Samples.stringify Samples.prompt) |} |}].
Proof.
  apply (whole_body_is_serialised_and_forwarded Samples.stringify (Samples.with_key "k3y")
           Samples.unreachable (Samples.post Samples.prompt)
           [("contents",
             JArray [JObject [("parts", JArray [JObject [("text", JString "hi")]])]])]
           (JArray [JObject [("parts", JArray [JObject [("text", JString "hi")]])]])
           "k3y").
  - reflexivity.
  - reflexivity.
  - reflexivity.
  - reflexivity.
  - reflexivity.
  - discriminate.
Defined.

(** X12: the relay calls the upstream at most once per request, and it
    calls it exactly when the method is POST, the body passes validation
    and the key is configured. *)
Theorem upstream_is_called_iff_checks_pass
    (JSON_stringify : json -> string) (env : gmap string string)
    (net : Network) (request : Request) :
  let w := run (handler JSON_stringify env net request) in
  (length (calls w) <= 1)%nat /\
  (calls w <> [] <->
   method request = "POST" /\ invalid_body (body request) = false
   /\ missing_key (env !! "GEMINI_API_KEY") = false).
Proof.
  cbn zeta. rewrite relay_runs. cbn zeta.
  destruct (String.eqb_spec (method request) "POST") as [Hm | Hm]; cbn [negb];
    [|split; [cbn; lia | split; [done | by intros (? & _)]]].
  destruct (invalid_body (body request));
    [split; [cbn; lia | split; [done | by intros (_ & ? & _)]]|].
  destruct (missing_key (env !! "GEMINI_API_KEY"));
    [split; [cbn; lia | split; [done | by intros (_ & _ & ?)]]|].
  assert (forall w : World, calls w = [forward_call JSON_stringify env request] ->
            (length (calls w) <= 1)%nat
            /\ (calls w <> [] <-> method request = "POST" /\ false = false /\ false = false))
    as Hone by (intros w ->; cbn; split; [lia | done]).
  apply Hone.
  destruct (net (forward_call JSON_stringify env request)) as [e|r]; [done|].
  by destruct (ok r), (resp_json r), (resp_text r).
Qed.

(** X13: the relay's handler never rejects: whatever the request, the
    environment and the upstream, it returns normally after sending a
    response, and it sets no response header. *)
Theorem relay_always_answers
    (JSON_stringify : json -> string) (env : gmap string string)
    (net : Network) (request : Request) :
  (handler JSON_stringify env net request initial_world).1 = Fulfilled tt /\
  let r := response (run (handler JSON_stringify env net request)) in
  sent r = true /\ headers r = ∅.
Proof.
  split.
  - unfold handler. cbn zeta.
    destruct (negb (method request =? "POST")); [reflexivity|].
    destruct (invalid_body (body request)); [reflexivity|].
    destruct (missing_key (env !! "GEMINI_API_KEY")); [reflexivity|].
    unfold try_catch, bind, fetch, await, set_status, send_json, console_error,
      update_response. cbn.
    destruct (net _) as [e|r]; [reflexivity|]. cbn.
    destruct (ok r); cbn; [destruct (resp_json r) | destruct (resp_text r)]; reflexivity.
  - cbn zeta. rewrite relay_runs. cbn zeta.
    destruct (negb (method request =? "POST")); [done|].
    destruct (invalid_body (body request)); [done|].
    destruct (missing_key (env !! "GEMINI_API_KEY")); [done|].
    destruct (net (forward_call JSON_stringify env request)) as [e|r]; [done|].
    by destruct (ok r), (resp_json r), (resp_text r).
Qed.

(** X14: when the upstream answers but its body cannot be used, an ok
    answer that is not JSON or an error answer whose text cannot be read,
    the relay answers the generic 500 [{error: 'Failed to fetch from Gemini
    API.'}]; the upstream's status is not forwarded, and the error goes to
    the log only. *)
Theorem unusable_upstream_body_is_generic
    (JSON_stringify : json -> string) (env : gmap string string) (net : Network) (request : Request)
    (c : OutboundCall) (r : FetchResponse) (e : Error) :
  let w := run (handler JSON_stringify env net request) in
  c ∈ calls w ->
  net c = Responded r ->
  ok r = true /\ resp_json r = Rejected e \/ ok r = false /\ resp_text r = Rejected e ->
  response w = error_reply 500 "Failed to fetch from Gemini API."
  /\ console w = [("Error proxying request to Gemini:", LogError e)].
Proof.
  cbn zeta. intros Hin Hnet Hbody.
  apply outbound_call_is_forward in Hin as (-> & Hm & Hb & Hk).
  rewrite relay_runs, Hm, Hb, Hk, Hnet. cbn.
  by destruct Hbody as [[-> ->] | [-> ->]].
Qed.

Lemma unusable_upstream_body_is_generic_witness :
  response (run (handler Samples.stringify (Samples.with_key "k3y") gemini_garbled
                         (Samples.post Samples.prompt)))
  = error_reply 500 "Failed to fetch from Gemini API." /\
  response (run (handler Samples.stringify (Samples.with_key "k3y") gemini_broken_stream
                         (Samples.post Samples.prompt)))
  = error_reply 500 "Failed to fetch from Gemini API.".
Proof.
  split.
  - apply (unusable_upstream_body_is_generic Samples.stringify (Samples.with_key "k3y")
      gemini_garbled
             (Samples.post Samples.prompt)
             (forward_call Samples.stringify (Samples.with_key "k3y") (Samples.post Samples.prompt))
             (garbled "<html>") (mkError "Unexpected token < in JSON at position 0")
             (list_elem_of_here _ _) eq_refl).
    left. split; reflexivity.
  - apply (unusable_upstream_body_is_generic Samples.stringify (Samples.with_key "k3y")
      gemini_broken_stream
             (Samples.post Samples.prompt)
             (forward_call Samples.stringify (Samples.with_key "k3y") (Samples.post Samples.prompt))
             _ (mkError "terminated") (list_elem_of_here _ _) eq_refl).
    right. split; reflexivity.
Defined.

(** X15: the value of the key shows neither in the response nor in the
    server log: two servers with different keys, both set or both missing,
    whose upstreams answer alike, send the same response and log the same
    entries. *)
Theorem key_value_is_not_observable
    (JSON_stringify : json -> string) (env1 env2 : gmap string string)
    (net1 net2 : Network) (request : Request) :
  missing_key (env1 !! "GEMINI_API_KEY") = missing_key (env2 !! "GEMINI_API_KEY") ->
  net1 (forward_call JSON_stringify env1 request)
  = net2 (forward_call JSON_stringify env2 request) ->
  let w1 := run (handler JSON_stringify env1 net1 request) in
  let w2 := run (handler JSON_stringify env2 net2 request) in
  response w1 = response w2 /\ console w1 = console w2.
Proof.
  intros Hkey Hnet. cbn zeta. rewrite !relay_runs. cbn zeta. rewrite Hkey, Hnet.
  destruct (negb (method request =? "POST")); [split; reflexivity|].
  destruct (invalid_body (body request)); [split; reflexivity|].
  destruct (missing_key (env2 !! "GEMINI_API_KEY")); [split; reflexivity|].
  destruct (net2 (forward_call JSON_stringify env2 request)) as [e|r]; [split; reflexivity|].
  destruct (ok r), (resp_json r), (resp_text r); split; reflexivity.
Qed.

Lemma key_value_is_not_observable_witness :
  response (run (handler Samples.stringify (Samples.with_key "k3y") Samples.gemini_quota
                         (Samples.post Samples.prompt)))
  = response (run (handler Samples.stringify (Samples.with_key "another-key") Samples.gemini_quota
                           (Samples.post Samples.prompt))) /\
  console (run (handler Samples.stringify (Samples.with_key "k3y") Samples.gemini_quota
                        (Samples.post Samples.prompt)))
  = console (run (handler Samples.stringify (Samples.with_key "another-key") Samples.gemini_quota
                          (Samples.post Samples.prompt))).
Proof.
  apply (key_value_is_not_observable Samples.stringify (Samples.with_key "k3y")
           (Samples.with_key "another-key") Samples.gemini_quota Samples.gemini_quota
           (Samples.post Samples.prompt)); reflexivity.
Defined.

(** X16: the relay logs nothing when it makes no outbound call (405, 400,
    missing key) and nothing when the upstream's answer is returned with
    200; when it forwards an upstream error it logs exactly the upstream's
    error text. *)
Theorem relay_log
    (JSON_stringify : json -> string) (env : gmap string string)
    (net : Network) (request : Request) :
  let w := run (handler JSON_stringify env net request) in
  (calls w = [] -> console w = []) /\
  (forall r data,
     calls w <> [] -> net (forward_call JSON_stringify env request) = Responded r ->
     ok r = true -> resp_json r = Fulfilled data -> console w = []) /\
  (forall r errorBody,
     calls w <> [] -> net (forward_call JSON_stringify env request) = Responded r ->
     ok r = false -> resp_text r = Fulfilled errorBody ->
     console w = [("Gemini API Error:", LogText errorBody)]).
Proof.
  cbn zeta. rewrite relay_runs. cbn zeta.
  destruct (negb (method request =? "POST")); [done|].
  destruct (invalid_body (body request)); [done|].
  destruct (missing_key (env !! "GEMINI_API_KEY")); [done|].
  destruct (net (forward_call JSON_stringify env request)) as [e|r] eqn:Hnet.
  - split; [discriminate | split; intros; discriminate].
  - destruct (ok r) eqn:Hok.
    + destruct (resp_json r) eqn:Hj; cbn;
        (split; [discriminate | split; intros r' ? _ [= <-] Hok' Hb; congruence]).
    + destruct (resp_text r) eqn:Ht; cbn;
        (split; [discriminate | split; intros r' ? _ [= <-] Hok' Hb; congruence]).
Qed.

Lemma relay_log_witness :
  console (run (handler Samples.stringify ∅ Samples.gemini_up (Samples.post Samples.prompt))) =
      [] /\
  console (run (handler Samples.stringify (Samples.with_key "k3y") Samples.gemini_up
                        (Samples.post Samples.prompt))) = [] /\
  console (run (handler Samples.stringify (Samples.with_key "k3y") Samples.gemini_quota
                        (Samples.post Samples.prompt)))
  = [("Gemini API Error:", LogText "quota exceeded")].
Proof.
  split; [|split].
  - apply (proj1 (relay_log Samples.stringify ∅ Samples.gemini_up (Samples.post Samples.prompt))).
    reflexivity.
  - apply (proj1 (proj2 (relay_log Samples.stringify (Samples.with_key "k3y") Samples.gemini_up
                           (Samples.post Samples.prompt)))
                 (Samples.success "" Samples.candidates) Samples.candidates);
      [discriminate | reflexivity..].
  - apply (proj2 (proj2 (relay_log Samples.stringify (Samples.with_key "k3y") Samples.gemini_quota
                           (Samples.post Samples.prompt)))
                 (Samples.failure 503 "Service Unavailable" "quota exceeded")
                 "quota exceeded");
      [discriminate | reflexivity..].
Defined.

End RelayMore.
